(** * MODELO-IA: the question -> answer -> PDF -> mail pipeline of [src/main.py]

    A shallow embedding of the LangGraph workflow of [main.py] and of its two
    helpers [create_pdf] and [send_email_with_attachment].

    - Python [str] values are sequences of code points ([list N]), so that
      the slices [question[:40]] and [question[:30]] count characters.
    - The graph state ([AppState], a [TypedDict], i.e. a [dict] at run time)
      and [os.environ] are finite maps with string keys.
    - Effects are explicit: a computation of type [Py A] takes the world
      (standard input, the file system, the number of language-model calls
      made so far, and the chronological trace of observable events) and
      returns either a value or a raised exception, with the new world.
    - The collaborators the program does not own (the language model, the
      PDF builder, SMTP, the process environment) are fields of [Env]:
      every theorem quantifies over them. *)

From Stdlib Require Import ZArith Lia Ascii String.
From stdpp Require Import gmap strings list fin_maps.

Local Open Scope N_scope.

(** ** Python strings *)

Abbreviation pystr := (list N).

(** The graph state: [AppState] is a [TypedDict], a [dict] with string keys
    at run time; a key is absent until a node has set it. *)
Abbreviation AppState := (gmap string pystr).

(** Source literals are written as they stand in [main.py]; the file is
    UTF-8, so a literal is decoded from its bytes to code points (one- to
    three-byte sequences cover every literal of the program). *)
Fixpoint utf8_decode (bs : list N) : pystr :=
  match bs with
  | [] => []
  | b :: r =>
      if b <? 192 then b :: utf8_decode r
      else match r with
           | [] => [b]
           | c1 :: r1 =>
               if b <? 224 then ((b - 192) * 64 + (c1 - 128)) :: utf8_decode r1
               else match r1 with
                    | [] => [b; c1]
                    | c2 :: r2 =>
                        ((b - 224) * 4096 + (c1 - 128) * 64 + (c2 - 128))
                          :: utf8_decode r2
                    end
           end
  end.

Definition py (s : string) : pystr :=
  utf8_decode (N_of_ascii <$> String.list_ascii_of_string s).

(** [s.replace(old, new)] for a one-character [old]. *)
Definition replace_char (old : N) (new : pystr) (s : pystr) : pystr :=
  s ≫= λ c, if c =? old then new else [c].

(** [os.path.basename]: what follows the last ['/']. *)
Definition basename (p : pystr) : pystr :=
  fold_left (λ acc c, if c =? 47 then [] else acc ++ [c]) p [].

(** Truth value of an [Optional[str]]: [None] and [''] are falsy. *)
Definition truthy (o : option pystr) : bool :=
  match o with
  | Some (_ :: _) => true
  | _ => false
  end.

(** ** Exceptions *)

Inductive exn_class :=
  | EOFError | KeyError | ValueError | TypeError | FileNotFoundError
  | GraphRecursionError
  | OtherError.

(** Every class above derives from [Exception]; [exn_str e] is [str(e)],
    what an f-string prints for [{e}]. *)
Record exn := Exn { exn_cls : exn_class; exn_str : pystr }.

Global Instance exn_class_eq_dec : EqDecision exn_class.
Proof. solve_decision. Defined.

(** ** The world *)

(** What [doc.build(story)] writes: the [h1] paragraph and the [BodyText]
    paragraph of the story. *)
Record Pdf := { pdf_title : pystr; pdf_body : pystr }.

(** The [MIMEMultipart] message handed to [server.sendmail]: three headers,
    the plain-text part and the attached file. *)
Record Message := {
  msg_from : pystr;
  msg_to : pystr;
  msg_subject : pystr;
  msg_text : pystr;
  msg_attachment_name : pystr;
  msg_attachment : Pdf
}.

Inductive outcome (A : Type) :=
  | Return (a : A)
  | Raise (e : exn).
Global Arguments Return {A} a.
Global Arguments Raise {A} e.

(** The observable events of a run, in the order they happen.  Calls of the
    program's own functions and of its collaborators are recorded with their
    arguments; [EvBuildPdf] and [EvSmtp] carry the outcome of the
    collaborator's call ([None]: the file was written; [starttls], [login]
    and [sendmail] all returned). *)
Inductive event :=
  | EvPrint (msg : pystr)
  | EvInput (prompt : pystr)
  | EvNode (name : string) (state : AppState)
  | EvLlm (prompt : pystr)
  | EvCreatePdf (title content filename : pystr)
  | EvBuildPdf (filename : pystr) (story : Pdf) (failure : option exn)
  | EvSendEmail (recipient subject body attachment_path : pystr)
  | EvSmtp (server : pystr) (port : Z) (user password : pystr)
           (m : Message) (failure : option exn)
  | EvRemove (path : pystr).

Record World := {
  stdin : list pystr;
  fs : gmap pystr Pdf;
  llm_calls : nat;
  trace : list event
}.

(** The collaborators. [environ] is [os.environ] after [load_dotenv()].
    [llm_invoke n p] answers the [n]-th call of [llm.invoke], made with prompt
    [p], by the response's [content] or by an exception.  [doc_build] is
    [SimpleDocTemplate(filename).build(story)]; [open_fault] is a failure of
    [open(path, "rb")] on a file that exists; [smtp_session] is the whole
    [with smtplib.SMTP(...)] block. *)
Record Env := {
  environ : gmap string pystr;
  llm_invoke : nat → pystr → outcome pystr;
  doc_build : pystr → Pdf → option exn;
  open_fault : pystr → option exn;
  smtp_session : pystr → Z → pystr → pystr → Message → option exn
}.

(** ** The effect monad *)

Definition Py (A : Type) : Type := World → outcome A * World.

Global Instance py_ret : MRet Py := λ A a w, (Return a, w).

Global Instance py_bind : MBind Py := λ A B k m w,
  match m w with
  | (Return a, w') => k a w'
  | (Raise e, w') => (Raise e, w')
  end.

Global Instance py_throw : MThrow exn Py := λ A e w, (Raise e, w).

(** [try: body / except Exception as e: handler e] *)
Definition try_except {A} (body : Py A) (handler : exn → Py A) : Py A := λ w,
  match body w with
  | (Return a, w') => (Return a, w')
  | (Raise e, w') => handler e w'
  end.

(** World updates. *)
Definition log (evs : list event) (w : World) : World :=
  {| stdin := stdin w; fs := fs w; llm_calls := llm_calls w; trace := trace w ++ evs |}.

Definition set_fs (files : gmap pystr Pdf) (w : World) : World :=
  {| stdin := stdin w; fs := files; llm_calls := llm_calls w; trace := trace w |}.

Definition set_stdin (lines : list pystr) (w : World) : World :=
  {| stdin := lines; fs := fs w; llm_calls := llm_calls w; trace := trace w |}.

Definition count_llm_call (w : World) : World :=
  {| stdin := stdin w; fs := fs w; llm_calls := S (llm_calls w); trace := trace w |}.

Definition emit (ev : event) : Py () := λ w, (Return (), log [ev] w).

Definition print (msg : pystr) : Py () := emit (EvPrint msg).

(** [input(prompt)]: the next line of standard input, [EOFError] at its end. *)
Definition input (prompt : pystr) : Py pystr := λ w,
  match stdin w with
  | line :: rest => (Return line, log [EvInput prompt] (set_stdin rest w))
  | [] => (Raise (Exn EOFError (py "EOF when reading a line")), log [EvInput prompt] w)
  end.

(** [d[key]] on a dict: [KeyError] when the key is absent; [str] of a
    [KeyError] is the [repr] of the key. *)
Definition getitem (d : AppState) (key : string) : Py pystr :=
  match d !! key with
  | Some v => mret v
  | None => mthrow (Exn KeyError (py "'" ++ py key ++ py "'"))
  end.

(** [os.remove(path)] *)
Definition no_such_file (path : pystr) : exn :=
  Exn FileNotFoundError (py "[Errno 2] No such file or directory: '" ++ path ++ py "'").

Definition os_remove (path : pystr) : Py () := λ w,
  match fs w !! path with
  | Some _ => (Return (), log [EvRemove path] (set_fs (delete path (fs w)) w))
  | None => (Raise (no_such_file path), log [EvRemove path] w)
  end.

(** [int(s)] for a string: optional blanks, an optional sign, then decimal
    digits in which single underscores may separate digits.  Blanks and
    digits are the ASCII ones; a string that [int_of_str] accepts denotes
    the same integer in Python. *)
Definition is_space (c : N) : bool :=
  ((9 <=? c) && (c <=? 13)) || ((28 <=? c) && (c <=? 32)).

Definition is_digit (c : N) : bool := (48 <=? c) && (c <=? 57).

Fixpoint digits_value (acc : Z) (after_digit : bool) (s : pystr) : option Z :=
  match s with
  | [] => if after_digit then Some acc else None
  | c :: r =>
      if is_digit c then digits_value (10 * acc + Z.of_N (c - 48)) true r
      else if (c =? 95) && after_digit
           then match r with
                | d :: _ => if is_digit d then digits_value acc false r else None
                | [] => None
                end
           else None
  end.

Fixpoint lstrip (s : pystr) : pystr :=
  match s with
  | c :: r => if is_space c then lstrip r else s
  | [] => []
  end.

Definition strip (s : pystr) : pystr := reverse (lstrip (reverse (lstrip s))).

Definition int_of_str (s : pystr) : option Z :=
  match strip s with
  | 45 :: r => Z.opp <$> digits_value 0 false r
  | 43 :: r => digits_value 0 false r
  | r => digits_value 0 false r
  end.

(** The [ValueError] of [int(s)] on any other string. *)
Definition invalid_literal (s : pystr) : exn :=
  Exn ValueError (py "invalid literal for int() with base 10: '" ++ s ++ py "'").

Definition nl : pystr := [10].

(** ** The program *)

(** The LangGraph [StateGraph]: named nodes, directed edges, an entry point.
    A node maps the current state to a partial update. *)
Record StateGraph := {
  nodes : gmap string (AppState → Py AppState);
  edges : list (string * string);
  entry_point : option string
}.

Definition END : string := "__end__".

Definition StateGraph_new : StateGraph :=
  {| nodes := ∅; edges := []; entry_point := None |}.

Definition add_node (name : string) (f : AppState → Py AppState)
    (g : StateGraph) : StateGraph :=
  {| nodes := <[name := f]> (nodes g); edges := edges g; entry_point := entry_point g |}.

Definition add_edge (src dst : string) (g : StateGraph) : StateGraph :=
  {| nodes := nodes g; edges := edges g ++ [(src, dst)]; entry_point := entry_point g |}.

Definition set_entry_point (name : string) (g : StateGraph) : StateGraph :=
  {| nodes := nodes g; edges := edges g; entry_point := Some name |}.

Definition successor (g : StateGraph) (name : string) : option string :=
  snd <$> List.find (λ e, String.eqb (fst e) name) (edges g).

(** The default [recursion_limit] of a compiled graph. *)
Definition recursion_limit : nat := 25.

(** One node after the other along the edges: the node is called with the
    current state, its update is merged key by key into the state (the
    update's keys win), and the run moves to the node's successor. *)
Fixpoint run_from (g : StateGraph) (fuel : nat) (name : string)
    (state : AppState) : Py AppState :=
  if String.eqb name END then mret state
  else match fuel with
       | O => mthrow (Exn GraphRecursionError (py "Recursion limit of 25 reached"))
       | S fuel' =>
           match nodes g !! name with
           | None => mthrow (Exn ValueError (py "unknown node"))
           | Some f =>
               emit (EvNode name state);;
               update ← f state;
               let state' := update ∪ state in
               match successor g name with
               | Some next => run_from g fuel' next state'
               | None => mret state'
               end
           end
       end.

Definition invoke (g : StateGraph) (input : AppState) : Py AppState :=
  match entry_point g with
  | Some name => run_from g recursion_limit name input
  | None => mthrow (Exn ValueError (py "no entry point"))
  end.

(** [{{}}] is a set display whose single element is the dict display [{}];
    building the set hashes its element, and a dict is unhashable. *)
Definition unhashable : exn := Exn TypeError (py "unhashable type: 'dict'").

Definition set_of_empty_dict {A} : Py A := mthrow unhashable.

Section Program.

Variable env : Env.

Definition os_getenv (key : string) : option pystr := environ env !! key.

(** *** Helpers: [create_pdf], [send_email_with_attachment] *)

(** [doc.build(story)]: on success the file [filename] holds the story. *)
Definition doc_build_file (filename : pystr) (story : Pdf) : Py () := λ w,
  let r := doc_build env filename story in
  match r with
  | None =>
      (Return (), log [EvBuildPdf filename story r] (set_fs (<[filename := story]> (fs w)) w))
  | Some e => (Raise e, log [EvBuildPdf filename story r] w)
  end.

Definition create_pdf (title content filename : pystr) : Py (option pystr) :=
  emit (EvCreatePdf title content filename);;
  try_except
    (let formatted_content := replace_char 10 (py "<br/>") content in
     doc_build_file filename {| pdf_title := title; pdf_body := formatted_content |};;
     print (py "PDF '" ++ filename ++ py "' creado exitosamente.");;
     mret (Some filename))
    (λ e,
     print (py "[ERROR] No se pudo crear el PDF: " ++ exn_str e);;
     mret None).

(** [open(path, "rb").read()] *)
Definition open_read (path : pystr) : Py Pdf :=
  λ w,
  match fs w !! path with
  | None => (Raise (no_such_file path), w)
  | Some data =>
      match open_fault env path with
      | Some e => (Raise e, w)
      | None => (Return data, w)
      end
  end.

Definition smtp_send (server : pystr) (port : Z) (user password : pystr)
    (m : Message) : Py () := λ w,
  let r := smtp_session env server port user password m in
  match r with
  | None => (Return (), log [EvSmtp server port user password m r] w)
  | Some e => (Raise e, log [EvSmtp server port user password m r] w)
  end.

Definition placeholder_sender : pystr := py "tu_correo@gmail.com".

(** The test of line 57:
    [not all([sender_email, password]) or sender_email == "tu_correo@gmail.com"] *)
Definition credentials_missing (sender_email password : option pystr) : bool :=
  negb (truthy sender_email && truthy password)
  || bool_decide (sender_email = Some placeholder_sender).

(** Lines 52-55: the sender's address and secret, the host (default
    [smtp.gmail.com]) and the port, [int(os.getenv("EMAIL_PORT", 587))]:
    the default [587] when the variable is unset, else the integer its
    string denotes, or no value when [int] rejects the string. *)
Definition sender_email : option pystr := os_getenv "EMAIL_HOST_USER".
Definition password : option pystr := os_getenv "EMAIL_HOST_PASSWORD".
Definition smtp_server : pystr := default (py "smtp.gmail.com") (os_getenv "EMAIL_HOST").

Definition configured_port : option Z :=
  match os_getenv "EMAIL_PORT" with
  | Some s => int_of_str s
  | None => Some 587%Z
  end.

Definition smtp_port : Py Z :=
  match configured_port with
  | Some port => mret port
  | None => mthrow (invalid_literal (default [] (os_getenv "EMAIL_PORT")))
  end.

(** Lines 62-73: the message with its attachment. *)
Definition make_message (recipient subject body attachment_path : pystr)
    (data : Pdf) : Message :=
  {| msg_from := default [] sender_email; msg_to := recipient;
     msg_subject := subject; msg_text := body;
     msg_attachment_name := basename attachment_path;
     msg_attachment := data |}.

Definition msg_no_credentials : pystr :=
  nl ++ py "[ERROR] Credenciales de correo no configuradas en .env.".

Definition send_email_with_attachment
    (recipient subject body attachment_path : pystr) : Py () :=
  emit (EvSendEmail recipient subject body attachment_path);;
  port ← smtp_port;
  if credentials_missing sender_email password
  then print msg_no_credentials
  else
    attached ← try_except
      (data ← open_read attachment_path; mret (Some data))
      (λ e,
       if decide (exn_cls e = FileNotFoundError)
       then print (py "[ERROR] Archivo adjunto no encontrado en: " ++ attachment_path);;
            mret None
       else print (py "[ERROR] No se pudo adjuntar el archivo: " ++ exn_str e);;
            mret None);
    match attached with
    | None => mret ()
    | Some data =>
        try_except
          (smtp_send smtp_server port (default [] sender_email) (default [] password)
             (make_message recipient subject body attachment_path data);;
           print (py "Correo enviado exitosamente a " ++ recipient ++ py "."))
          (λ e, print (py "[ERROR] Ocurrió un error al enviar el correo: " ++ exn_str e))
    end.

(** *** The nodes of the graph *)

(** Lines 92-94, run when the module is loaded. *)
Definition module_load : Py () :=
  if truthy (os_getenv "GITHUB_TOKEN") then mret ()
  else mthrow (Exn ValueError (py "GITHUB_TOKEN no encontrado en el archivo .env")).

(** [llm.invoke(prompt).content] *)
Definition llm (prompt : pystr) : Py pystr := λ w,
  (llm_invoke env (llm_calls w) prompt, log [EvLlm prompt] (count_llm_call w)).

Definition get_user_data (state : AppState) : Py AppState :=
  print (py "--- Asistente de IA v2 (con LangGraph y PDF) ---");;
  question ← input (py "Por favor, introduce tu pregunta: ");
  email ← input (py "Ahora, introduce tu correo para recibir la respuesta: ");
  mret {[ "question" := question; "email" := email ]}.

Definition intention_prompt (question : pystr) : pystr :=
  py "Analiza y resume en una sola frase la intención principal de la siguiente pregunta: '"
    ++ question ++ py "'".

Definition analyze_intention (state : AppState) : Py AppState :=
  print (py "Analizando intención de la pregunta...");;
  question ← getitem state "question";
  let prompt := intention_prompt question in
  try_except
    (intention ← llm prompt;
     print (py "Intención detectada: " ++ intention);;
     mret {[ "intention" := intention ]})
    (λ e, mret {[ "error" := py "Error analizando la intención: " ++ exn_str e ]}).

Definition generate_answer (state : AppState) : Py AppState :=
  print (py "Generando respuesta principal...");;
  try_except
    (question ← getitem state "question";
     answer ← llm question;
     print (py "Respuesta generada.");;
     mret {[ "answer" := answer ]})
    (λ e, mret {[ "error" := py "Error generando la respuesta: " ++ exn_str e ]}).

Definition pdf_filename : pystr := py "respuesta_ia.pdf".

Definition pdf_title_of (question : pystr) : pystr :=
  py "Respuesta a: " ++ take 40 question ++ py "...".

Definition email_subject_of (question : pystr) : pystr :=
  py "Respuesta a tu pregunta: '" ++ take 30 question ++ py "...'".

Definition email_body : pystr :=
  py "Hola," ++ nl ++ nl
    ++ py "Adjunto encontrarás la respuesta generada por la IA a tu pregunta."
    ++ nl ++ nl ++ py "Saludos.".

Definition process_outputs (state : AppState) : Py AppState :=
  print (py "Procesando salidas finales...");;
  if truthy (state !! "error")
  then
    error ← getitem state "error";
    print (nl ++ py "[PROCESO INTERRUMPIDO] " ++ error);;
    set_of_empty_dict
  else
    answer ← getitem state "answer";
    question ← getitem state "question";
    email ← getitem state "email";
    pdf_path ← create_pdf (pdf_title_of question) answer pdf_filename;
    (if truthy pdf_path
     then
       let path := default [] pdf_path in
       send_email_with_attachment email (email_subject_of question) email_body path;;
       os_remove path;;
       print (py "Archivo temporal '" ++ path ++ py "' eliminado.")
     else mret ());;
    set_of_empty_dict.

(** *** The graph and the main block *)

Definition workflow : StateGraph :=
  foldl (λ g build, build g) StateGraph_new
    [ add_node "get_user_data" get_user_data;
      add_node "analyze_intention" analyze_intention;
      add_node "generate_answer" generate_answer;
      add_node "process_outputs" process_outputs;
      set_entry_point "get_user_data";
      add_edge "get_user_data" "analyze_intention";
      add_edge "analyze_intention" "generate_answer";
      add_edge "generate_answer" "process_outputs";
      add_edge "process_outputs" END ].

Definition app : StateGraph := workflow.

(** Lines 179-181. *)
Definition main : Py () :=
  input_state ← set_of_empty_dict;
  invoke app input_state;;
  print (nl ++ py "--- Proceso del grafo finalizado. ---").

Definition program : Py () := module_load;; main.

End Program.

(** A world at the start of a run: nothing printed, no model call made. *)
Definition fresh (lines : list pystr) (files : gmap pystr Pdf) : World :=
  {| stdin := lines; fs := files; llm_calls := 0; trace := [] |}.

(** A run of the pipeline: [app.invoke] called with the empty state, with
    [lines] waiting on standard input and [files] on disk. *)
Definition run (env : Env) (lines : list pystr) (files : gmap pystr Pdf)
    : outcome AppState * World :=
  invoke (app env) ∅ (fresh lines files).

(** ** Observations on a trace *)

Definition node_calls (tr : list event) : list string :=
  omap (λ ev, match ev with EvNode n _ => Some n | _ => None end) tr.

(** The states the node [name] was called with. *)
Definition states_at (name : string) (tr : list event) : list AppState :=
  omap (λ ev, match ev with
              | EvNode n s => if String.eqb n name then Some s else None
              | _ => None
              end) tr.

Definition llm_prompts (tr : list event) : list pystr :=
  omap (λ ev, match ev with EvLlm p => Some p | _ => None end) tr.

(** The calls of [create_pdf]: title, content, file name. *)
Definition renders (tr : list event) : list (pystr * pystr * pystr) :=
  omap (λ ev, match ev with EvCreatePdf t c f => Some (t, c, f) | _ => None end) tr.

(** The files the PDF builder wrote. *)
Definition artifacts (tr : list event) : list pystr :=
  omap (λ ev, match ev with EvBuildPdf f _ None => Some f | _ => None end) tr.

(** The calls of [send_email_with_attachment]. *)
Definition dispatches (tr : list event) : list (pystr * pystr * pystr * pystr) :=
  omap (λ ev, match ev with EvSendEmail r s b a => Some (r, s, b, a) | _ => None end) tr.

(** The SMTP sessions opened, each with the message and its outcome. *)
Definition smtp_sessions (tr : list event) : list (pystr * Z * Message * option exn) :=
  omap (λ ev, match ev with
              | EvSmtp server port _ _ m r => Some (server, port, m, r)
              | _ => None
              end) tr.

(** The prompts of the calls of [input]. *)
Definition input_prompts (tr : list event) : list pystr :=
  omap (λ ev, match ev with EvInput p => Some p | _ => None end) tr.

Definition removals (tr : list event) : list pystr :=
  omap (λ ev, match ev with EvRemove p => Some p | _ => None end) tr.

(** A mail was handed to the SMTP server. *)
Definition delivered (tr : list event) : bool :=
  existsb (λ ev, match ev with EvSmtp _ _ _ _ _ None => true | _ => false end) tr.

Fixpoint starts_with (p s : pystr) : bool :=
  match p, s with
  | [], _ => true
  | a :: p', b :: s' => (a =? b) && starts_with p' s'
  | _ :: _, [] => false
  end.

(** A printed failure report: a line that opens, after an optional line
    break, with [[ERROR]] or [[PROCESO INTERRUMPIDO]]. *)
Definition is_report (msg : pystr) : bool :=
  let line := match msg with 10 :: r => r | _ => msg end in
  starts_with (py "[ERROR]") line || starts_with (py "[PROCESO INTERRUMPIDO]") line.

Definition reports (tr : list event) : list pystr :=
  omap (λ ev, match ev with
              | EvPrint m => if is_report m then Some m else None
              | _ => None
              end) tr.

Definition reported (tr : list event) : bool :=
  match reports tr with [] => false | _ => true end.

Definition failed {A} (r : outcome A) : bool :=
  match r with Return _ => false | Raise _ => true end.

(** ** Normal forms used by the proofs

    The definitions below name the states, events and messages that the
    program above produces; each is tied to the program by a lemma of the
    next part ([run_spec], [send_email_spec], [deliver_spec]). *)

(** The message printed by the two [except] clauses around [open]. *)
Definition attach_error (path : pystr) (x : exn) : pystr :=
  if decide (exn_cls x = FileNotFoundError)
  then py "[ERROR] Archivo adjunto no encontrado en: " ++ path
  else py "[ERROR] No se pudo adjuntar el archivo: " ++ exn_str x.

(** What a dispatch call does after its port conversion succeeded with
    [port], on the files [files]. *)
Definition dispatch_events (env : Env) (files : gmap pystr Pdf) (port : Z)
    (recipient subject body path : pystr) : list event :=
  if credentials_missing (sender_email env) (password env)
  then [EvPrint msg_no_credentials]
  else
    match files !! path with
    | None => [EvPrint (attach_error path (no_such_file path))]
    | Some data =>
        match open_fault env path with
        | Some x => [EvPrint (attach_error path x)]
        | None =>
            let m := make_message env recipient subject body path data in
            let r := smtp_session env (smtp_server env) port (default [] (sender_email env))
                       (default [] (password env)) m in
            [EvSmtp (smtp_server env) port (default [] (sender_email env))
               (default [] (password env)) m r;
             EvPrint match r with
                     | None => py "Correo enviado exitosamente a " ++ recipient ++ py "."
                     | Some x => py "[ERROR] Ocurrió un error al enviar el correo: " ++ exn_str x
                     end]
        end
    end.

(** The story [create_pdf] builds for the question [q] and the answer [a]. *)
Definition story_of (q a : pystr) : Pdf :=
  {| pdf_title := pdf_title_of q; pdf_body := replace_char 10 (py "<br/>") a |}.

(** The terminal step up to and including its dispatch call, when the PDF
    was written; and its last two events. *)
Definition rendered_events (q a e : pystr) : list event :=
  [EvPrint (py "Procesando salidas finales...");
   EvCreatePdf (pdf_title_of q) a pdf_filename;
   EvBuildPdf pdf_filename (story_of q a) None;
   EvPrint (py "PDF '" ++ pdf_filename ++ py "' creado exitosamente.");
   EvSendEmail e (email_subject_of q) email_body pdf_filename].

(** The terminal step on a state that carries the error [err], and on
    one whose PDF could not be built. *)
Definition interrupted_events (err : pystr) : list event :=
  [EvPrint (py "Procesando salidas finales...");
   EvPrint (nl ++ py "[PROCESO INTERRUMPIDO] " ++ err)].

Definition render_failed_events (q a : pystr) (x : exn) : list event :=
  [EvPrint (py "Procesando salidas finales...");
   EvCreatePdf (pdf_title_of q) a pdf_filename;
   EvBuildPdf pdf_filename (story_of q a) (Some x);
   EvPrint (py "[ERROR] No se pudo crear el PDF: " ++ exn_str x)].

Definition cleanup_events : list event :=
  [EvRemove pdf_filename;
   EvPrint (py "Archivo temporal '" ++ pdf_filename ++ py "' eliminado.")].

(** The updates of the two language-model nodes, by the outcome of their
    call, and the state each node of the chain is called with. *)
Definition intention_update (r : outcome pystr) : AppState :=
  match r with
  | Return i => {[ "intention" := i ]}
  | Raise x => {[ "error" := py "Error analizando la intención: " ++ exn_str x ]}
  end.

Definition answer_update (r : outcome pystr) : AppState :=
  match r with
  | Return a => {[ "answer" := a ]}
  | Raise x => {[ "error" := py "Error generando la respuesta: " ++ exn_str x ]}
  end.

Definition state_at_analysis (q e : pystr) : AppState :=
  {[ "question" := q; "email" := e ]} ∪ ∅.

Definition state_at_answer (q e : pystr) (r1 : outcome pystr) : AppState :=
  intention_update r1 ∪ state_at_analysis q e.

Definition state_at_terminal (q e : pystr) (r1 r2 : outcome pystr) : AppState :=
  answer_update r2 ∪ state_at_answer q e r1.

(** The events of the first three nodes, and the call of the fourth. *)
Definition business_trace (q e : pystr) (r1 r2 : outcome pystr) : list event :=
  [EvNode "get_user_data" ∅;
   EvPrint (py "--- Asistente de IA v2 (con LangGraph y PDF) ---");
   EvInput (py "Por favor, introduce tu pregunta: ");
   EvInput (py "Ahora, introduce tu correo para recibir la respuesta: ");
   EvNode "analyze_intention" (state_at_analysis q e);
   EvPrint (py "Analizando intención de la pregunta...");
   EvLlm (intention_prompt q)]
  ++ match r1 with
     | Return i => [EvPrint (py "Intención detectada: " ++ i)]
     | Raise _ => []
     end
  ++ [EvNode "generate_answer" (state_at_answer q e r1);
      EvPrint (py "Generando respuesta principal...");
      EvLlm q]
  ++ match r2 with
     | Return _ => [EvPrint (py "Respuesta generada.")]
     | Raise _ => []
     end
  ++ [EvNode "process_outputs" (state_at_terminal q e r1 r2)].

(** In a run that read the question [q], the outcomes of the model calls
    of [analyze_intention] and of [generate_answer], and the world the
    terminal step starts in. *)
Definition first_call (env : Env) (q : pystr) : outcome pystr :=
  llm_invoke env 0 (intention_prompt q).

Definition second_call (env : Env) (q : pystr) : outcome pystr :=
  llm_invoke env 1 q.

Definition world_at_terminal (rest : list pystr) (files : gmap pystr Pdf)
    (q e : pystr) (r1 r2 : outcome pystr) : World :=
  {| stdin := rest; fs := files; llm_calls := 2; trace := business_trace q e r1 r2 |}.

(** The events of the terminal step in a run, by the outcomes [r1] and [r2]
    of the two model calls. *)
Definition terminal_events (env : Env) (files : gmap pystr Pdf) (q e : pystr)
    (r1 r2 : outcome pystr) : list event :=
  match r2, r1 with
  | Raise x, _ => interrupted_events (py "Error generando la respuesta: " ++ exn_str x)
  | Return _, Raise x => interrupted_events (py "Error analizando la intención: " ++ exn_str x)
  | Return a, Return _ =>
      match doc_build env pdf_filename (story_of q a) with
      | Some x => render_failed_events q a x
      | None =>
          match configured_port env with
          | None => rendered_events q a e
          | Some port =>
              rendered_events q a e
                ++ dispatch_events env (<[pdf_filename := story_of q a]> files) port e
                     (email_subject_of q) email_body pdf_filename
                ++ cleanup_events
          end
      end
  end.

(** The same collaborators with another SMTP server. *)
Definition with_smtp (env : Env)
    (smtp : pystr → Z → pystr → pystr → Message → option exn) : Env :=
  {| environ := environ env; llm_invoke := llm_invoke env; doc_build := doc_build env;
     open_fault := open_fault env; smtp_session := smtp |}.

(** ** Sample collaborators *)

Definition boom : exn := Exn OtherError (py "connection refused").

(** Collaborators that work: the PDF builder writes its file, files open,
    and the model answers its first call with [first] and the later ones
    with [second]. *)
Definition sample_env (vars : gmap string pystr) (first second : outcome pystr)
    (smtp : option exn) : Env :=
  {| environ := vars;
     llm_invoke := λ n _, match n with O => first | S _ => second end;
     doc_build := λ _ _, None;
     open_fault := λ _, None;
     smtp_session := λ _ _ _ _ _, smtp |}.

Definition sample_vars : gmap string pystr :=
  {[ "GITHUB_TOKEN" := py "ghp_token";
     "EMAIL_HOST_USER" := py "bot@example.org";
     "EMAIL_HOST_PASSWORD" := py "secret" ]}.

(** Scenario A of the specification: the model returns
    ["Arithmetic question"], then ["4"]; mail is configured and works. *)
Definition env_ok : Env :=
  sample_env sample_vars (Return (py "Arithmetic question")) (Return (py "4")) None.

Definition env_intent_fails : Env :=
  sample_env sample_vars (Raise boom) (Return (py "4")) None.

Definition env_empty_answer : Env :=
  sample_env sample_vars (Return (py "Arithmetic question")) (Return []) None.

Definition env_smtp_down : Env :=
  sample_env sample_vars (Return (py "Arithmetic question")) (Return (py "4")) (Some boom).

Definition env_bad_port : Env :=
  sample_env (<[ "EMAIL_PORT" := py "smtp" ]> sample_vars)
    (Return (py "Arithmetic question")) (Return (py "4")) None.

Definition env_no_token : Env :=
  sample_env (delete "GITHUB_TOKEN" sample_vars)
    (Return (py "Arithmetic question")) (Return (py "4")) None.

(** The same as [env_ok] with a PDF builder that fails. *)
Definition env_render_fails : Env :=
  {| environ := sample_vars;
     llm_invoke := llm_invoke env_ok;
     doc_build := λ _ _, Some boom;
     open_fault := λ _, None;
     smtp_session := λ _ _ _ _ _, None |}.

Definition question_a : pystr := py "What is 2+2?".
Definition recipient_a : pystr := py "a@b.com".

(** * Part II: properties *)

(** ** Worlds *)

Lemma log_log a b w : log b (log a w) = log (a ++ b) w.
Proof. unfold log; simpl. by rewrite app_assoc. Qed.

Lemma set_fs_log f a w : set_fs f (log a w) = log a (set_fs f w).
Proof. reflexivity. Qed.

Lemma set_stdin_log l a w : set_stdin l (log a w) = log a (set_stdin l w).
Proof. reflexivity. Qed.

Lemma count_llm_call_log a w : count_llm_call (log a w) = log a (count_llm_call w).
Proof. reflexivity. Qed.

Lemma set_fs_set_fs f g w : set_fs f (set_fs g w) = set_fs f w.
Proof. reflexivity. Qed.

Lemma stdin_log a w : stdin (log a w) = stdin w.
Proof. reflexivity. Qed.

Lemma stdin_set_stdin l w : stdin (set_stdin l w) = l.
Proof. reflexivity. Qed.

Lemma fs_log a w : fs (log a w) = fs w.
Proof. reflexivity. Qed.

Lemma fs_set_fs f w : fs (set_fs f w) = f.
Proof. reflexivity. Qed.

Lemma llm_calls_log a w : llm_calls (log a w) = llm_calls w.
Proof. reflexivity. Qed.

Lemma llm_calls_set_stdin l w : llm_calls (set_stdin l w) = llm_calls w.
Proof. reflexivity. Qed.

Lemma llm_calls_count_llm_call w : llm_calls (count_llm_call w) = S (llm_calls w).
Proof. reflexivity. Qed.

Lemma trace_log a w : trace (log a w) = trace w ++ a.
Proof. reflexivity. Qed.

Lemma trace_set_fs f w : trace (set_fs f w) = trace w.
Proof. reflexivity. Qed.

Create Rewrite HintDb world.

#[global] Hint Rewrite stdin_log stdin_set_stdin fs_log fs_set_fs
  llm_calls_log llm_calls_set_stdin llm_calls_count_llm_call trace_log trace_set_fs
  count_llm_call_log set_fs_log set_stdin_log set_fs_set_fs log_log : world.

(** Unfolds the monad, and nothing of the data. *)
Ltac py_unfold :=
  lazy beta iota zeta delta
    [mbind py_bind mret py_ret mthrow py_throw emit print try_except getitem].

Ltac world_eq :=
  rewrite ?count_llm_call_log, ?set_fs_log, ?set_stdin_log, ?log_log; reflexivity.

(** ** The helpers and the nodes, one by one *)

Section Steps.

Variable env : Env.

Lemma smtp_port_spec w :
  smtp_port env w =
  match configured_port env with
  | Some port => (Return port, w)
  | None => (Raise (invalid_literal (default [] (os_getenv env "EMAIL_PORT"))), w)
  end.
Proof. unfold smtp_port. by destruct (configured_port env). Qed.

Lemma create_pdf_spec title content filename w :
  create_pdf env title content filename w =
  let story := {| pdf_title := title; pdf_body := replace_char 10 (py "<br/>") content |} in
  match doc_build env filename story with
  | None =>
      (Return (Some filename),
       log [EvCreatePdf title content filename; EvBuildPdf filename story None;
            EvPrint (py "PDF '" ++ filename ++ py "' creado exitosamente.")]
         (set_fs (<[filename := story]> (fs w)) w))
  | Some x =>
      (Return None,
       log [EvCreatePdf title content filename; EvBuildPdf filename story (Some x);
            EvPrint (py "[ERROR] No se pudo crear el PDF: " ++ exn_str x)] w)
  end.
Proof.
  unfold create_pdf, doc_build_file. py_unfold.
  destruct (doc_build env filename _) as [x|]; rewrite ?set_fs_log, !log_log; reflexivity.
Qed.

Lemma send_email_spec recipient subject body path w :
  send_email_with_attachment env recipient subject body path w =
  match configured_port env with
  | None =>
      (Raise (invalid_literal (default [] (os_getenv env "EMAIL_PORT"))),
       log [EvSendEmail recipient subject body path] w)
  | Some port =>
      (Return (),
       log (EvSendEmail recipient subject body path
              :: dispatch_events env (fs w) port recipient subject body path) w)
  end.
Proof.
  unfold send_email_with_attachment. py_unfold. rewrite smtp_port_spec.
  destruct (configured_port env) as [port|]; [|reflexivity].
  unfold dispatch_events.
  destruct (credentials_missing _ _); [by rewrite log_log|].
  unfold open_read, smtp_send, attach_error. py_unfold. rewrite fs_log.
  destruct (fs w !! path) as [data|].
  - destruct (open_fault env path) as [x|].
    + destruct (decide _); by rewrite log_log.
    + destruct (smtp_session _ _ _ _ _ _); by rewrite !log_log.
  - cbn [no_such_file exn_cls]. destruct (decide _); [by rewrite log_log | done].
Qed.

Lemma os_remove_spec path w :
  os_remove path w =
  match fs w !! path with
  | Some _ => (Return (), log [EvRemove path] (set_fs (delete path (fs w)) w))
  | None => (Raise (no_such_file path), log [EvRemove path] w)
  end.
Proof. reflexivity. Qed.

Lemma get_user_data_spec s w q e rest :
  stdin w = q :: e :: rest →
  get_user_data s w =
  (Return {[ "question" := q; "email" := e ]},
   log [EvPrint (py "--- Asistente de IA v2 (con LangGraph y PDF) ---");
        EvInput (py "Por favor, introduce tu pregunta: ");
        EvInput (py "Ahora, introduce tu correo para recibir la respuesta: ")]
     (set_stdin rest w)).
Proof.
  intros Hin. unfold get_user_data, input. py_unfold.
  rewrite stdin_log, Hin. py_unfold. rewrite stdin_log, stdin_set_stdin. py_unfold.
  world_eq.
Qed.

Lemma get_user_data_eof s w :
  stdin w = [] →
  get_user_data s w =
  (Raise (Exn EOFError (py "EOF when reading a line")),
   log [EvPrint (py "--- Asistente de IA v2 (con LangGraph y PDF) ---");
        EvInput (py "Por favor, introduce tu pregunta: ")] w).
Proof.
  intros Hin. unfold get_user_data, input. py_unfold.
  rewrite stdin_log, Hin. py_unfold. world_eq.
Qed.

Lemma analyze_intention_spec s w q :
  s !! "question" = Some q →
  analyze_intention env s w =
  (Return (intention_update (llm_invoke env (llm_calls w) (intention_prompt q))),
   log ([EvPrint (py "Analizando intención de la pregunta...");
         EvLlm (intention_prompt q)]
          ++ match llm_invoke env (llm_calls w) (intention_prompt q) with
             | Return i => [EvPrint (py "Intención detectada: " ++ i)]
             | Raise _ => []
             end) (count_llm_call w)).
Proof.
  intros Hq. unfold analyze_intention, llm. py_unfold. rewrite Hq, llm_calls_log.
  destruct (llm_invoke env _ _); world_eq.
Qed.

Lemma generate_answer_spec s w q :
  s !! "question" = Some q →
  generate_answer env s w =
  (Return (answer_update (llm_invoke env (llm_calls w) q)),
   log ([EvPrint (py "Generando respuesta principal..."); EvLlm q]
          ++ match llm_invoke env (llm_calls w) q with
             | Return _ => [EvPrint (py "Respuesta generada.")]
             | Raise _ => []
             end) (count_llm_call w)).
Proof.
  intros Hq. unfold generate_answer, llm. py_unfold. rewrite Hq, llm_calls_log.
  destruct (llm_invoke env _ _); world_eq.
Qed.

Lemma process_outputs_error s w err :
  s !! "error" = Some err → truthy (Some err) = true →
  process_outputs env s w =
  (Raise unhashable,
   log [EvPrint (py "Procesando salidas finales...");
        EvPrint (nl ++ py "[PROCESO INTERRUMPIDO] " ++ err)] w).
Proof.
  intros He Ht. unfold process_outputs, set_of_empty_dict. py_unfold.
  rewrite He, Ht. by rewrite log_log.
Qed.

Lemma process_outputs_ok s w a q e :
  truthy (s !! "error") = false →
  s !! "answer" = Some a → s !! "question" = Some q → s !! "email" = Some e →
  process_outputs env s w =
  match create_pdf env (pdf_title_of q) a pdf_filename
          (log [EvPrint (py "Procesando salidas finales...")] w) with
  | (Return (Some path), w1) =>
      match send_email_with_attachment env e (email_subject_of q) email_body path w1 with
      | (Return _, w2) =>
          match os_remove path w2 with
          | (Return _, w3) =>
              (Raise unhashable,
               log [EvPrint (py "Archivo temporal '" ++ path ++ py "' eliminado.")] w3)
          | (Raise x, w3) => (Raise x, w3)
          end
      | (Raise x, w2) => (Raise x, w2)
      end
  | (Return None, w1) => (Raise unhashable, w1)
  | (Raise x, w1) => (Raise x, w1)
  end.
Proof.
  intros He Ha Hq Hm. unfold process_outputs, set_of_empty_dict. py_unfold.
  rewrite He, Ha, Hq, Hm. rewrite create_pdf_spec.
  lazy zeta. destruct (doc_build env _ _); [reflexivity|].
  change (truthy (Some pdf_filename)) with true. lazy beta iota zeta delta [default].
  destruct (send_email_with_attachment _ _ _ _ _ _) as [[[]|x] w2]; [|reflexivity].
  destruct (os_remove _ _) as [[[]|x] w3]; reflexivity.
Qed.

(** The terminal step on a state without error: every path, in full. *)
Lemma deliver_spec s w a q e :
  truthy (s !! "error") = false →
  s !! "answer" = Some a → s !! "question" = Some q → s !! "email" = Some e →
  process_outputs env s w =
  match doc_build env pdf_filename (story_of q a) with
  | Some x =>
      (Raise unhashable,
       log [EvPrint (py "Procesando salidas finales...");
            EvCreatePdf (pdf_title_of q) a pdf_filename;
            EvBuildPdf pdf_filename (story_of q a) (Some x);
            EvPrint (py "[ERROR] No se pudo crear el PDF: " ++ exn_str x)] w)
  | None =>
      let files := <[pdf_filename := story_of q a]> (fs w) in
      match configured_port env with
      | None =>
          (Raise (invalid_literal (default [] (os_getenv env "EMAIL_PORT"))),
           log (rendered_events q a e) (set_fs files w))
      | Some port =>
          (Raise unhashable,
           log (rendered_events q a e
                  ++ dispatch_events env files port e (email_subject_of q) email_body
                       pdf_filename
                  ++ cleanup_events)
             (set_fs (delete pdf_filename files) w))
      end
  end.
Proof.
  intros He Ha Hq Hm. rewrite (process_outputs_ok s w a q e) by done.
  rewrite create_pdf_spec. lazy zeta. fold (story_of q a).
  destruct (doc_build env _ _) as [x|]; [by rewrite log_log|].
  rewrite send_email_spec.
  destruct (configured_port env) as [port|] eqn:Hp.
  - rewrite os_remove_spec. autorewrite with world. rewrite lookup_insert_eq.
    autorewrite with world. unfold rendered_events, cleanup_events.
    by rewrite <- !app_assoc.
  - by autorewrite with world.
Qed.

(** ** The chain *)

Lemma state_at_answer_question q e r1 : state_at_answer q e r1 !! "question" = Some q.
Proof.
  unfold state_at_answer, state_at_analysis.
  destruct r1; cbn [intention_update]; by simplify_map_eq.
Qed.

Lemma state_at_terminal_question q e r1 r2 : state_at_terminal q e r1 r2 !! "question" = Some q.
Proof.
  unfold state_at_terminal, state_at_answer, state_at_analysis.
  destruct r1, r2; cbn [intention_update answer_update]; by simplify_map_eq.
Qed.

Lemma state_at_terminal_email q e r1 r2 : state_at_terminal q e r1 r2 !! "email" = Some e.
Proof.
  unfold state_at_terminal, state_at_answer, state_at_analysis.
  destruct r1, r2; cbn [intention_update answer_update]; by simplify_map_eq.
Qed.

Lemma state_at_terminal_answer q e r1 r2 :
  state_at_terminal q e r1 r2 !! "answer" =
  match r2 with Return a => Some a | Raise _ => None end.
Proof.
  unfold state_at_terminal, state_at_answer, state_at_analysis.
  destruct r1, r2; cbn [intention_update answer_update]; by simplify_map_eq.
Qed.

Lemma state_at_terminal_error q e r1 r2 :
  state_at_terminal q e r1 r2 !! "error" =
  match r2, r1 with
  | Raise x, _ => Some (py "Error generando la respuesta: " ++ exn_str x)
  | Return _, Raise x => Some (py "Error analizando la intención: " ++ exn_str x)
  | Return _, Return _ => None
  end.
Proof.
  unfold state_at_terminal, state_at_answer, state_at_analysis.
  destruct r1, r2; cbn [intention_update answer_update]; by simplify_map_eq.
Qed.

(** A run that finds its two lines of input is the terminal step, called
    on [state_at_terminal] after the events of [business_trace]. *)
Lemma run_spec q e rest files :
  let r1 := first_call env q in
  let r2 := second_call env q in
  let s3 := state_at_terminal q e r1 r2 in
  run env (q :: e :: rest) files =
  match process_outputs env s3 (world_at_terminal rest files q e r1 r2) with
  | (Return u, w) => (Return (u ∪ s3), w)
  | (Raise x, w) => (Raise x, w)
  end.
Proof.
  intros r1 r2 s3.
  change (run env (q :: e :: rest) files) with
    ((emit (EvNode "get_user_data" ∅);;
      u1 ← get_user_data ∅;
      let s1 := u1 ∪ ∅ in
      emit (EvNode "analyze_intention" s1);;
      u2 ← analyze_intention env s1;
      let s2 := u2 ∪ s1 in
      emit (EvNode "generate_answer" s2);;
      u3 ← generate_answer env s2;
      let s3 := u3 ∪ s2 in
      emit (EvNode "process_outputs" s3);;
      u4 ← process_outputs env s3;
      mret (u4 ∪ s3)) (fresh (q :: e :: rest) files)).
  py_unfold.
  rewrite (get_user_data_spec _ _ q e rest) by reflexivity.
  py_unfold. fold (state_at_analysis q e).
  rewrite (analyze_intention_spec _ _ q) by (unfold state_at_analysis; by simplify_map_eq).
  autorewrite with world. change (llm_calls (fresh _ _)) with 0%nat.
  fold (first_call env q). fold r1.
  py_unfold. fold (state_at_answer q e r1).
  rewrite (generate_answer_spec _ _ q) by apply state_at_answer_question.
  autorewrite with world. change (llm_calls (fresh _ _)) with 0%nat.
  fold (second_call env q). fold r2.
  py_unfold. fold (state_at_terminal q e r1 r2). fold s3.
  autorewrite with world.
  match goal with |- context [process_outputs env s3 ?w] => set (w3 := w) end.
  assert (w3 = world_at_terminal rest files q e r1 r2) as ->; [|reflexivity].
  unfold w3, world_at_terminal, log, count_llm_call, set_stdin, fresh, business_trace.
  cbn [stdin fs llm_calls trace]. f_equal.
  rewrite <- !app_assoc. reflexivity.
Qed.

(** A run that finds no input stops in its first node: [input] raises
    [EOFError] and nothing catches it. *)
Lemma run_without_input files :
  run env [] files =
  (Raise (Exn EOFError (py "EOF when reading a line")),
   log [EvNode "get_user_data" ∅;
        EvPrint (py "--- Asistente de IA v2 (con LangGraph y PDF) ---");
        EvInput (py "Por favor, introduce tu pregunta: ")] (fresh [] files)).
Proof.
  change (run env [] files) with
    ((emit (EvNode "get_user_data" ∅);;
      u1 ← get_user_data ∅;
      run_from (app env) 24 "analyze_intention" (u1 ∪ ∅)) (fresh [] files)).
  py_unfold. rewrite get_user_data_eof by reflexivity. world_eq.
Qed.

End Steps.

(** ** Observations *)

Lemma reports_app a b : reports (a ++ b) = reports a ++ reports b.
Proof. apply omap_app. Qed.

Lemma delivered_app a b : delivered (a ++ b) = delivered a || delivered b.
Proof. apply existsb_app. Qed.

Lemma is_report_attach_error path x : is_report (attach_error path x) = true.
Proof. unfold attach_error. destruct (decide _); vm_compute; reflexivity. Qed.

(** The first three nodes call the model twice and touch neither the
    renderer nor the mail nor the disk, and they report nothing. *)
Lemma business_trace_observed q e r1 r2 :
  let tr := business_trace q e r1 r2 in
  node_calls tr = ["get_user_data"; "analyze_intention"; "generate_answer"; "process_outputs"]
  ∧ states_at "generate_answer" tr = [state_at_answer q e r1]
  ∧ states_at "process_outputs" tr = [state_at_terminal q e r1 r2]
  ∧ llm_prompts tr = [intention_prompt q; q]
  ∧ renders tr = [] ∧ artifacts tr = [] ∧ dispatches tr = []
  ∧ smtp_sessions tr = [] ∧ removals tr = []
  ∧ delivered tr = false ∧ reports tr = [].
Proof. destruct r1, r2; split_and!; reflexivity. Qed.

Section Dispatch.

Variable env : Env.

Lemma reports_print m : reports [EvPrint m] = if is_report m then [m] else [].
Proof. unfold reports. cbn [omap list_omap]. by destruct (is_report m). Qed.

Lemma reports_smtp server port user secret m r tr :
  reports (EvSmtp server port user secret m r :: tr) = reports tr.
Proof. reflexivity. Qed.

Lemma is_report_no_credentials : is_report msg_no_credentials = true.
Proof. vm_compute. reflexivity. Qed.

Lemma is_report_smtp_error x :
  is_report (py "[ERROR] Ocurrió un error al enviar el correo: " ++ exn_str x) = true.
Proof. vm_compute. reflexivity. Qed.

Lemma is_report_sent recipient :
  is_report (py "Correo enviado exitosamente a " ++ recipient ++ py ".") = false.
Proof. vm_compute. reflexivity. Qed.

(** A dispatch call that returns either hands one mail to the server or
    prints one report, and does nothing else. *)
Lemma dispatch_events_silent files port recipient subject body path :
  let d := dispatch_events env files port recipient subject body path in
  node_calls d = [] ∧ llm_prompts d = [] ∧ (∀ n, states_at n d = [])
  ∧ renders d = [] ∧ artifacts d = [] ∧ dispatches d = [] ∧ removals d = [].
Proof.
  unfold dispatch_events.
  destruct (credentials_missing _ _); [done|].
  destruct (files !! path) as [data|]; [|done].
  destruct (open_fault env path) as [x|]; [done|].
  lazy zeta. by destruct (smtp_session _ _ _ _ _ _).
Qed.

Lemma dispatch_events_outcome files port recipient subject body path :
  let d := dispatch_events env files port recipient subject body path in
  (delivered d = true ∧ reports d = []) ∨ (delivered d = false ∧ ∃ m, reports d = [m]).
Proof.
  unfold dispatch_events.
  destruct (credentials_missing _ _).
  { right. split; [reflexivity|]. exists msg_no_credentials.
    by rewrite reports_print, is_report_no_credentials. }
  destruct (files !! path) as [data|].
  2:{ right. split; [reflexivity|]. eexists.
      by rewrite reports_print, is_report_attach_error. }
  destruct (open_fault env path) as [x|].
  { right. split; [reflexivity|]. eexists.
    by rewrite reports_print, is_report_attach_error. }
  lazy zeta. destruct (smtp_session _ _ _ _ _ _) as [x|].
  - right. split; [reflexivity|]. eexists.
    by rewrite reports_smtp, reports_print, is_report_smtp_error.
  - left. split; [reflexivity|].
    by rewrite reports_smtp, reports_print, is_report_sent.
Qed.

Lemma dispatch_events_sessions files port recipient subject body path data :
  credentials_missing (sender_email env) (password env) = false →
  files !! path = Some data → open_fault env path = None →
  let m := make_message env recipient subject body path data in
  smtp_sessions (dispatch_events env files port recipient subject body path) =
  [(smtp_server env, port, m,
    smtp_session env (smtp_server env) port (default [] (sender_email env))
      (default [] (password env)) m)].
Proof. intros Hc Hf Ho. unfold dispatch_events. by rewrite Hc, Hf, Ho. Qed.

End Dispatch.

Lemma node_calls_app a b : node_calls (a ++ b) = node_calls a ++ node_calls b.
Proof. apply omap_app. Qed.

Lemma states_at_app name a b : states_at name (a ++ b) = states_at name a ++ states_at name b.
Proof. apply omap_app. Qed.

Lemma llm_prompts_app a b : llm_prompts (a ++ b) = llm_prompts a ++ llm_prompts b.
Proof. apply omap_app. Qed.

Lemma renders_app a b : renders (a ++ b) = renders a ++ renders b.
Proof. apply omap_app. Qed.

Lemma artifacts_app a b : artifacts (a ++ b) = artifacts a ++ artifacts b.
Proof. apply omap_app. Qed.

Lemma dispatches_app a b : dispatches (a ++ b) = dispatches a ++ dispatches b.
Proof. apply omap_app. Qed.

Lemma smtp_sessions_app a b : smtp_sessions (a ++ b) = smtp_sessions a ++ smtp_sessions b.
Proof. apply omap_app. Qed.

Lemma removals_app a b : removals (a ++ b) = removals a ++ removals b.
Proof. apply omap_app. Qed.

Create Rewrite HintDb obs.

#[global] Hint Rewrite node_calls_app states_at_app llm_prompts_app renders_app
  artifacts_app dispatches_app smtp_sessions_app removals_app reports_app
  delivered_app : obs.

(** ** Whole runs *)

Section Runs.

Variable env : Env.
Variables (q e : pystr) (rest : list pystr) (files : gmap pystr Pdf).

(** Some model call failed: the terminal step reports and does nothing else. *)
Lemma run_failed err :
  state_at_terminal q e (first_call env q) (second_call env q) !! "error" = Some err →
  truthy (Some err) = true →
  run env (q :: e :: rest) files =
  (Raise unhashable,
   log (interrupted_events err)
     (world_at_terminal rest files q e (first_call env q) (second_call env q))).
Proof.
  intros He Ht. rewrite run_spec. lazy zeta.
  by rewrite (process_outputs_error env _ _ err).
Qed.

(** Both model calls returned: the terminal step renders and dispatches. *)
Lemma run_answered i a :
  first_call env q = Return i → second_call env q = Return a →
  let w3 := world_at_terminal rest files q e (Return i) (Return a) in
  run env (q :: e :: rest) files =
  match doc_build env pdf_filename (story_of q a) with
  | Some x => (Raise unhashable, log (render_failed_events q a x) w3)
  | None =>
      let made := <[pdf_filename := story_of q a]> files in
      match configured_port env with
      | None =>
          (Raise (invalid_literal (default [] (os_getenv env "EMAIL_PORT"))),
           log (rendered_events q a e) (set_fs made w3))
      | Some port =>
          (Raise unhashable,
           log (rendered_events q a e
                  ++ dispatch_events env made port e (email_subject_of q) email_body
                       pdf_filename
                  ++ cleanup_events)
             (set_fs (delete pdf_filename made) w3))
      end
  end.
Proof.
  intros H1 H2 w3. rewrite run_spec. lazy zeta. rewrite H1, H2. fold w3.
  rewrite (deliver_spec env _ w3 a q e).
  - destruct (doc_build env _ _); [reflexivity|].
    lazy zeta. by destruct (configured_port env).
  - by rewrite state_at_terminal_error.
  - by rewrite state_at_terminal_answer.
  - apply state_at_terminal_question.
  - apply state_at_terminal_email.
Qed.

Lemma run_trace :
  trace (run env (q :: e :: rest) files).2 =
  business_trace q e (first_call env q) (second_call env q)
    ++ terminal_events env files q e (first_call env q) (second_call env q).
Proof.
  unfold terminal_events.
  destruct (second_call env q) as [a|y] eqn:H2.
  - destruct (first_call env q) as [i|x] eqn:H1.
    + rewrite (run_answered i a) by done.
      destruct (doc_build env _ _); [reflexivity|].
      lazy zeta. by destruct (configured_port env).
    + erewrite run_failed; [by rewrite H1, H2| |reflexivity].
      by rewrite state_at_terminal_error, H1, H2.
  - erewrite run_failed; [by rewrite H2| |reflexivity].
    by rewrite state_at_terminal_error, H2.
Qed.

End Runs.

(** The shapes of the terminal step's events, observed. *)

Lemma interrupted_events_observed err :
  let t := interrupted_events err in
  node_calls t = [] ∧ llm_prompts t = [] ∧ (∀ n, states_at n t = [])
  ∧ renders t = [] ∧ artifacts t = [] ∧ dispatches t = [] ∧ smtp_sessions t = []
  ∧ removals t = [] ∧ delivered t = false
  ∧ reports t = [nl ++ py "[PROCESO INTERRUMPIDO] " ++ err].
Proof. split_and!; try intros n; vm_compute; reflexivity. Qed.

Lemma render_failed_events_observed q a x :
  let t := render_failed_events q a x in
  node_calls t = [] ∧ llm_prompts t = [] ∧ (∀ n, states_at n t = [])
  ∧ renders t = [(pdf_title_of q, a, pdf_filename)]
  ∧ artifacts t = [] ∧ dispatches t = [] ∧ smtp_sessions t = []
  ∧ removals t = [] ∧ delivered t = false
  ∧ reports t = [py "[ERROR] No se pudo crear el PDF: " ++ exn_str x].
Proof. split_and!; try intros n; vm_compute; reflexivity. Qed.

Lemma rendered_events_observed q a e :
  let t := rendered_events q a e in
  node_calls t = [] ∧ llm_prompts t = [] ∧ (∀ n, states_at n t = [])
  ∧ renders t = [(pdf_title_of q, a, pdf_filename)]
  ∧ artifacts t = [pdf_filename]
  ∧ dispatches t = [(e, email_subject_of q, email_body, pdf_filename)]
  ∧ smtp_sessions t = [] ∧ removals t = [] ∧ delivered t = false ∧ reports t = [].
Proof. split_and!; try intros n; vm_compute; reflexivity. Qed.

Lemma cleanup_events_observed :
  let t := cleanup_events in
  node_calls t = [] ∧ llm_prompts t = [] ∧ (∀ n, states_at n t = [])
  ∧ renders t = [] ∧ artifacts t = [] ∧ dispatches t = [] ∧ smtp_sessions t = []
  ∧ removals t = [pdf_filename] ∧ delivered t = false ∧ reports t = [].
Proof. split_and!; try intros n; vm_compute; reflexivity. Qed.

(** Rewrites with every conjunct of [H] that applies. *)
Ltac use_facts H :=
  lazy zeta in H;
  repeat match type of H with
    | _ ∧ _ => let H1 := fresh in destruct H as [H1 H]; try rewrite H1; clear H1
    end;
  try rewrite H; clear H.

(** The same with a lemma, failing when no conjunct applies. *)
Ltac observed_by lem :=
  let H := fresh in
  pose proof lem as H;
  match goal with
  | |- ?G => use_facts H; match goal with |- ?G' => tryif constr_eq G G' then fail else idtac end
  end.

Ltac observed :=
  autorewrite with obs;
  repeat first
    [ match goal with |- context [interrupted_events ?err] =>
        observed_by (interrupted_events_observed err) end
    | match goal with |- context [render_failed_events ?q ?a ?x] =>
        observed_by (render_failed_events_observed q a x) end
    | match goal with |- context [rendered_events ?q ?a ?e] =>
        observed_by (rendered_events_observed q a e) end
    | observed_by cleanup_events_observed
    | match goal with |- context [business_trace ?q ?e ?r1 ?r2] =>
        observed_by (business_trace_observed q e r1 r2) end
    | match goal with |- context [dispatch_events ?env ?f ?p ?r ?s ?b ?a] =>
        observed_by (dispatch_events_silent env f p r s b a) end ].

Section Claims.

Variable env : Env.

Lemma terminal_events_quiet files q e r1 r2 :
  let t := terminal_events env files q e r1 r2 in
  node_calls t = [] ∧ llm_prompts t = [] ∧ ∀ n, states_at n t = [].
Proof.
  unfold terminal_events.
  destruct r2 as [a|y]; [destruct r1 as [i|x]|];
    [|split_and!; try intros n; by observed..].
  destruct (doc_build env _ _); [split_and!; try intros n; by observed|].
  destruct (configured_port env); split_and!; try intros n; by observed.
Qed.

(** The error field at the terminal step is set exactly when a model call
    failed. *)
Lemma state_at_terminal_failed q e r1 r2 :
  truthy (state_at_terminal q e r1 r2 !! "error") = failed r1 || failed r2.
Proof. rewrite state_at_terminal_error. by destruct r1, r2. Qed.

(** With the error field set, the terminal step only prints. *)
Lemma terminal_events_interrupted files q e r1 r2 :
  failed r1 || failed r2 = true →
  ∃ err, terminal_events env files q e r1 r2 = interrupted_events err.
Proof. unfold terminal_events. destruct r2, r1; try done; by eexists. Qed.

(** C1 (as amended): the graph is a chain of unconditional edges.  In every
    run that reads its two lines of input, all four nodes are called in
    order and the language model is called twice, first with the intention
    prompt and then with the question, whether or not the first call failed.
    At the terminal step [answer] holds the reply of the second call when it
    returned, and [error] is set exactly when a call failed; with [error]
    set, the terminal step renders, dispatches and deletes nothing. *)
Theorem chain_runs_every_step q e rest files :
  let r1 := first_call env q in
  let r2 := second_call env q in
  let tr := trace (run env (q :: e :: rest) files).2 in
  node_calls tr = ["get_user_data"; "analyze_intention"; "generate_answer"; "process_outputs"]
  ∧ llm_prompts tr = [intention_prompt q; q]
  ∧ ∃ s, states_at "process_outputs" tr = [s]
      ∧ s !! "answer" = match r2 with Return a => Some a | Raise _ => None end
      ∧ truthy (s !! "error") = failed r1 || failed r2
      ∧ (truthy (s !! "error") = true →
         renders tr = [] ∧ dispatches tr = [] ∧ smtp_sessions tr = [] ∧ removals tr = []).
Proof.
  intros r1 r2 tr. subst tr. rewrite run_trace. fold r1 r2.
  pose proof (terminal_events_quiet files q e r1 r2) as Hq.
  split_and!.
  - observed. by use_facts Hq.
  - observed. by use_facts Hq.
  - exists (state_at_terminal q e r1 r2). split_and!.
    + observed. by use_facts Hq.
    + apply state_at_terminal_answer.
    + apply state_at_terminal_failed.
    + rewrite state_at_terminal_failed. intros Hf.
      destruct (terminal_events_interrupted files q e r1 r2 Hf) as [err ->].
      split_and!; by observed.
Qed.

(** The terminal step of a run hands one mail to the server or prints one
    report, when the configured port is an integer. *)
Lemma terminal_events_outcome files q e r1 r2 :
  is_Some (configured_port env) →
  let t := terminal_events env files q e r1 r2 in
  (delivered t = true ∧ reports t = []) ∨ (delivered t = false ∧ ∃ m, reports t = [m]).
Proof.
  intros [port Hp]. unfold terminal_events. rewrite Hp.
  destruct r2 as [a|y]; [destruct r1 as [i|x]|];
    [|right; split; [|eexists]; by observed..].
  destruct (doc_build env _ _); [right; split; [|eexists]; by observed|].
  destruct (dispatch_events_outcome env (<[pdf_filename:=story_of q a]> files) port e
              (email_subject_of q) email_body pdf_filename) as [[Hd Hr]|[Hd [m Hr]]].
  - left. split; observed; by rewrite ?Hd, ?Hr.
  - right. split; [|exists m]; observed; by rewrite ?Hd, ?Hr.
Qed.


(** C3 (as amended): at the terminal step [error] is set exactly when a
    model call failed, and [answer] holds the reply of the second call when
    that call returned, empty or not.  So exactly one of "[error] is set" and
    "[answer] is set and non-empty" holds unless the analysis failed while
    the answer call returned a non-empty reply (both hold), or both calls
    returned and the reply is empty (neither holds). *)
Theorem terminal_state_fields q e rest files :
  let r1 := first_call env q in
  let r2 := second_call env q in
  let tr := trace (run env (q :: e :: rest) files).2 in
  ∃ s, states_at "process_outputs" tr = [s]
    ∧ truthy (s !! "error") = failed r1 || failed r2
    ∧ s !! "answer" = match r2 with Return a => Some a | Raise _ => None end
    ∧ xorb (truthy (s !! "error")) (truthy (s !! "answer"))
      = failed r2 || xorb (failed r1) (truthy (s !! "answer")).
Proof.
  intros r1 r2 tr. subst tr. rewrite run_trace. fold r1 r2.
  pose proof (terminal_events_quiet files q e r1 r2) as Hq.
  exists (state_at_terminal q e r1 r2). split_and!.
  - observed. by use_facts Hq.
  - apply state_at_terminal_failed.
  - apply state_at_terminal_answer.
  - rewrite state_at_terminal_failed, state_at_terminal_answer.
    by destruct r1 as [i|x], r2 as [[|c t]|y].
Qed.





Lemma truthy_false (o : option pystr) : truthy o = false ↔ o = None ∨ o = Some [].
Proof.
  destruct o as [[|c t]|]; simpl; split; try done; eauto; by intros [?|?].
Qed.


(** C7: in every run that hands a mail to the server, [create_pdf] is
    called once, with the title ["Respuesta a: "] followed by the first 40
    characters of the question and by ["..."], and with the answer itself as
    content.  A question of 100 characters contributes exactly its first 40
    characters to the title. *)
Theorem render_call_arguments q e rest files :
  let tr := trace (run env (q :: e :: rest) files).2 in
  delivered tr = true →
  ∃ s a, states_at "process_outputs" tr = [s]
    ∧ s !! "question" = Some q ∧ s !! "answer" = Some a
    ∧ renders tr = [(py "Respuesta a: " ++ take 40 q ++ py "...", a, py "respuesta_ia.pdf")]
    ∧ (length (take 40 q) ≤ 40)%nat
    ∧ (length q = 100%nat → length (take 40 q) = 40%nat ∧ take 40 q `prefix_of` q).
Proof.
  intros tr. subst tr. rewrite run_trace.
  set (r1 := first_call env q). set (r2 := second_call env q).
  pose proof (terminal_events_quiet files q e r1 r2) as Hq.
  intros Hd.
  exists (state_at_terminal q e r1 r2).
  assert (∃ a i, r2 = Return a ∧ r1 = Return i
                 ∧ renders (terminal_events env files q e r1 r2)
                   = [(pdf_title_of q, a, pdf_filename)]) as (a & i & H2 & H1 & Hr).
  { revert Hd. unfold terminal_events.
    destruct r2 as [a|y]; [destruct r1 as [i|x]|]; [|by observed..].
    destruct (doc_build env _ _); [by observed|].
    destruct (configured_port env); [|by observed].
    intros _. exists a, i. split_and!; [done..|by observed]. }
  exists a. split_and!.
  - observed. by use_facts Hq.
  - apply state_at_terminal_question.
  - by rewrite state_at_terminal_answer, H2.
  - observed. by rewrite Hr.
  - rewrite length_take. lia.
  - intros Hl. split; [rewrite length_take; lia|apply prefix_take].
Qed.

(** C8: [generate_answer] reads the state only at ["question"]: on two
    states that agree there (whatever their [intention]) it sends the same
    request to the model and, the model being the same, returns the same
    update and leaves the same world. *)
Theorem generate_answer_ignores_intention (s1 s2 : AppState) w :
  s1 !! "question" = s2 !! "question" →
  generate_answer env s1 w = generate_answer env s2 w.
Proof. intros Hq. unfold generate_answer, getitem. by rewrite Hq. Qed.

(** Before it has read its three fields the terminal step does not look at
    the collaborators. *)
Lemma process_outputs_key_error env' s w :
  truthy (s !! "error") = false →
  s !! "answer" = None ∨ s !! "question" = None ∨ s !! "email" = None →
  process_outputs env s w = process_outputs env' s w.
Proof.
  intros He Hk. unfold process_outputs. py_unfold. rewrite He.
  destruct (s !! "answer"); [|done].
  destruct (s !! "question"); [|done].
  destruct (s !! "email"); [|done].
  by destruct Hk as [?|[?|?]].
Qed.


(** C10: with [GITHUB_TOKEN] unset the program stops at module load with
    [ValueError]: the world is untouched, so no node was called, nothing
    was printed and no state exists to carry an error. *)
Theorem missing_token_raises_at_load w :
  os_getenv env "GITHUB_TOKEN" = None →
  program env w =
  (Raise (Exn ValueError (py "GITHUB_TOKEN no encontrado en el archivo .env")), w).
Proof. intros Ht. unfold program, module_load. by rewrite Ht. Qed.

(** X1: every path through [process_outputs] ends at [return {{}}] or
    raises earlier: the terminal step never returns an update. *)
Theorem process_outputs_never_returns s w :
  ∃ x w', process_outputs env s w = (Raise x, w').
Proof.
  unfold process_outputs, set_of_empty_dict. py_unfold.
  destruct (truthy (s !! "error")).
  { destruct (s !! "error"); eauto. }
  destruct (s !! "answer"); [|eauto].
  destruct (s !! "question"); [|eauto].
  destruct (s !! "email"); [|eauto].
  destruct (create_pdf env _ _ _ _) as [[pdf_path|x] w1]; [|eauto].
  destruct (truthy pdf_path); [|eauto].
  destruct (send_email_with_attachment env _ _ _ _ _) as [[[]|x] w2]; [|eauto].
  destruct (os_remove _ _) as [[[]|x] w3]; eauto.
Qed.

(** X2: the main block evaluates [{{}}] before it calls [app.invoke]: it
    raises [TypeError] and no node runs. *)
Theorem main_raises_before_invoke w : main env w = (Raise unhashable, w).
Proof. reflexivity. Qed.

End Claims.

(** C1 (as stated) fails: the analysis call fails, [generate_answer] is
    called all the same with [error] already set, it calls the model with
    the question, and the terminal step sees the answer ["4"]. *)
Lemma analysis_failure_does_not_skip_answer :
  let tr := trace (run env_intent_fails [question_a; recipient_a] ∅).2 in
  failed (first_call env_intent_fails question_a) = true
  ∧ (∃ s, states_at "generate_answer" tr = [s] ∧ truthy (s !! "error") = true)
  ∧ llm_prompts tr = [intention_prompt question_a; question_a]
  ∧ ∃ s, states_at "process_outputs" tr = [s] ∧ s !! "answer" = Some (py "4").
Proof.
  lazy zeta. split_and!.
  - reflexivity.
  - eexists. split; [vm_compute; reflexivity|]. vm_compute. reflexivity.
  - vm_compute. reflexivity.
  - eexists. split; [vm_compute; reflexivity|]. vm_compute. reflexivity.
Qed.


(** C3 (as stated) fails both ways: after a failed analysis and a returned
    answer both fields are set at the terminal step; after an empty reply
    neither [error] nor a non-empty [answer] is. *)
Lemma error_and_answer_both_or_neither :
  (∃ s, states_at "process_outputs"
          (trace (run env_intent_fails [question_a; recipient_a] ∅).2) = [s]
        ∧ truthy (s !! "error") = true ∧ truthy (s !! "answer") = true)
  ∧ (∃ s, states_at "process_outputs"
            (trace (run env_empty_answer [question_a; recipient_a] ∅).2) = [s]
          ∧ truthy (s !! "error") = false ∧ truthy (s !! "answer") = false).
Proof.
  split; (eexists; split_and!; [vm_compute; reflexivity|vm_compute; reflexivity..]).
Qed.





(** ** The theorems at concrete inputs *)

Lemma env_ok_port : configured_port env_ok = Some 587%Z.
Proof. vm_compute. reflexivity. Defined.





Lemma render_call_arguments_witness :
  let q := replicate 100 97 in
  let tr := trace (run env_ok [q; recipient_a] ∅).2 in
  ∃ s a, states_at "process_outputs" tr = [s]
    ∧ s !! "question" = Some q ∧ s !! "answer" = Some a
    ∧ renders tr = [(py "Respuesta a: " ++ take 40 q ++ py "...", a, py "respuesta_ia.pdf")]
    ∧ (length (take 40 q) ≤ 40)%nat
    ∧ (length q = 100%nat → length (take 40 q) = 40%nat ∧ take 40 q `prefix_of` q).
Proof.
  apply (render_call_arguments env_ok (replicate 100 97) recipient_a [] ∅).
  vm_compute. reflexivity.
Defined.

Lemma generate_answer_ignores_intention_witness :
  let s1 : AppState := {[ "question" := question_a; "intention" := py "Arithmetic" ]} in
  let s2 : AppState := {[ "question" := question_a; "intention" := py "Small talk" ]} in
  s1 !! "intention" ≠ s2 !! "intention"
  ∧ generate_answer env_ok s1 (fresh [] ∅) = generate_answer env_ok s2 (fresh [] ∅).
Proof.
  intros s1 s2. split.
  - vm_compute. discriminate.
  - apply generate_answer_ignores_intention. vm_compute. reflexivity.
Defined.


Lemma missing_token_raises_at_load_witness :
  os_getenv env_no_token "GITHUB_TOKEN" = None
  ∧ program env_no_token (fresh [question_a; recipient_a] ∅) =
    (Raise (Exn ValueError (py "GITHUB_TOKEN no encontrado en el archivo .env")),
     fresh [question_a; recipient_a] ∅).
Proof.
  assert (H : os_getenv env_no_token "GITHUB_TOKEN" = None) by (vm_compute; reflexivity).
  exact (conj H (missing_token_raises_at_load env_no_token _ H)).
Defined.
(** ** [int] on strings, and the decoding of literals *)

Example int_of_str_587 : int_of_str (py "587") = Some 587%Z.
Proof. reflexivity. Qed.

Example int_of_str_blank_signed : int_of_str (py " -4_65 ") = Some (-465)%Z.
Proof. reflexivity. Qed.

Example int_of_str_word : int_of_str (py "smtp") = None.
Proof. reflexivity. Qed.

Example py_decodes_accents : py "ó" = [243].
Proof. reflexivity. Qed.

(** * Part III: further properties of the helpers and of the nodes *)

(** ** [create_pdf] *)

Lemma replace_char_cons old new c s :
  replace_char old new (c :: s) = (if c =? old then new else [c]) ++ replace_char old new s.
Proof. reflexivity. Qed.

Lemma replace_char_removes old new s : old ∉ new → old ∉ replace_char old new s.
Proof.
  intros Hn. induction s as [|c s IH]; [apply not_elem_of_nil|].
  rewrite replace_char_cons. apply not_elem_of_app. split; [|done].
  destruct (N.eqb_spec c old) as [->|Hc]; [done|].
  intros Hin. apply list_elem_of_singleton in Hin. congruence.
Qed.

Lemma replace_char_absent old new s : old ∉ s → replace_char old new s = s.
Proof.
  induction s as [|c s IH]; [done|]. intros Hn. apply not_elem_of_cons in Hn as [Hc Hs].
  rewrite replace_char_cons, IH by done.
  destruct (N.eqb_spec c old) as [->|_]; [by destruct Hc|done].
Qed.

Lemma replace_char_length old new s :
  let k := length (filter (λ c, c = old) s) in
  (length (replace_char old new s) + k = length s + length new * k)%nat.
Proof.
  induction s as [|c s IH]; [cbn; lia|].
  cbn zeta in *. rewrite replace_char_cons, length_app, filter_cons.
  destruct (N.eqb_spec c old) as [->|Hc].
  - rewrite decide_True by done. cbn [length]. lia.
  - rewrite decide_False by done. cbn [length]. lia.
Qed.

Section More.

Variable env : Env.

(** Only prints can be reports. *)
Lemma reports_skip ev tr :
  (∀ m, ev ≠ EvPrint m) → reports (ev :: tr) = reports tr.
Proof. intros Hn. destruct ev; try reflexivity. by destruct (Hn msg). Qed.

Lemma is_report_pdf_created filename :
  is_report (py "PDF '" ++ filename ++ py "' creado exitosamente.") = false.
Proof. vm_compute. reflexivity. Qed.

Lemma is_report_pdf_failed x :
  is_report (py "[ERROR] No se pudo crear el PDF: " ++ exn_str x) = true.
Proof. vm_compute. reflexivity. Qed.

(** X3: [create_pdf] never raises.  When the builder succeeds it returns
    the file name, the file holds the story and no failure is reported; when
    the builder fails it returns [None], leaves the disk as it was and
    prints one report carrying the text of the exception. *)
Theorem create_pdf_never_raises title content filename w :
  let r := create_pdf env title content filename w in
  let story := {| pdf_title := title; pdf_body := replace_char 10 (py "<br/>") content |} in
  match doc_build env filename story with
  | None =>
      r.1 = Return (Some filename)
      ∧ fs r.2 = <[filename := story]> (fs w)
      ∧ reports (trace r.2) = reports (trace w)
  | Some x =>
      r.1 = Return None
      ∧ fs r.2 = fs w
      ∧ reports (trace r.2)
        = reports (trace w) ++ [py "[ERROR] No se pudo crear el PDF: " ++ exn_str x]
  end.
Proof.
  intros r story. subst r. rewrite create_pdf_spec. lazy zeta. fold story.
  destruct (doc_build env filename story) as [x|]; cbn [fst snd];
    autorewrite with world; (split; [reflexivity|]); (split; [reflexivity|]);
    rewrite reports_app; rewrite reports_skip, reports_skip by done;
    rewrite reports_print.
  - by rewrite is_report_pdf_failed.
  - by rewrite is_report_pdf_created, app_nil_r.
Qed.

(** X4: in the file that [create_pdf] writes, the title is the title
    given and the body holds no line break: each ['\n'] of the content has
    become ["<br/>"] (four characters more per line break), and a content
    without line break is written as it is. *)
Theorem pdf_body_has_no_newline title content filename w :
  doc_build env filename
    {| pdf_title := title; pdf_body := replace_char 10 (py "<br/>") content |} = None →
  ∃ d, (fs (create_pdf env title content filename w).2) !! filename = Some d
    ∧ pdf_title d = title
    ∧ (10 ∉ pdf_body d)
    ∧ (10 ∉ content → pdf_body d = content)
    ∧ length (pdf_body d)
      = (length content + 4 * length (filter (λ c, c = 10%N) content))%nat.
Proof.
  intros Hb. rewrite create_pdf_spec. lazy zeta. rewrite Hb.
  eexists. split; [cbn [snd]; autorewrite with world; apply lookup_insert_eq|].
  cbn [pdf_title pdf_body]. split_and!.
  - reflexivity.
  - apply replace_char_removes. vm_compute. intros Hin.
    repeat (apply elem_of_cons in Hin as [Hin|Hin]; [discriminate|]).
    by apply elem_of_nil in Hin.
  - apply replace_char_absent.
  - pose proof (replace_char_length 10 (py "<br/>") content) as Hl. cbn zeta in Hl.
    change (length (py "<br/>")) with 5%nat in Hl. lia.
Qed.

(** X5: whatever state it is given, [get_user_data] takes the next two
    lines of input, in order, as [question] and [email]; its update has these
    two keys and no other, and the lines that follow stay unread. *)
Theorem get_user_data_reads_two_lines s w q e rest :
  stdin w = q :: e :: rest →
  ∃ u, (get_user_data s w).1 = Return u
    ∧ dom u = {[ "question"; "email" ]}
    ∧ u !! "question" = Some q ∧ u !! "email" = Some e
    ∧ stdin (get_user_data s w).2 = rest
    ∧ input_prompts (trace (get_user_data s w).2)
      = input_prompts (trace w)
          ++ [py "Por favor, introduce tu pregunta: ";
              py "Ahora, introduce tu correo para recibir la respuesta: "].
Proof.
  intros Hin. rewrite (get_user_data_spec s w q e rest Hin).
  eexists. split; [reflexivity|]. split_and!.
  - rewrite dom_insert_L, dom_singleton_L. reflexivity.
  - by simplify_map_eq.
  - by simplify_map_eq.
  - reflexivity.
  - cbn [snd]. autorewrite with world. unfold input_prompts. by rewrite omap_app.
Qed.

Lemma get_user_data_one_line s w q :
  stdin w = [q] →
  get_user_data s w =
  (Raise (Exn EOFError (py "EOF when reading a line")),
   log [EvPrint (py "--- Asistente de IA v2 (con LangGraph y PDF) ---");
        EvInput (py "Por favor, introduce tu pregunta: ");
        EvInput (py "Ahora, introduce tu correo para recibir la respuesta: ")]
     (set_stdin [] w)).
Proof.
  intros Hin. unfold get_user_data, input. py_unfold.
  rewrite stdin_log, Hin. py_unfold. rewrite stdin_log, stdin_set_stdin. py_unfold.
  world_eq.
Qed.

(** X6: a run that finds fewer than two lines of input ends in its first
    node with [EOFError]: the model is never called, nothing is rendered,
    dispatched or reported, and the disk is as it was. *)
Theorem short_input_stops_the_run lines files :
  (length lines < 2)%nat →
  let r := run env lines files in
  (∃ x, r.1 = Raise x ∧ exn_cls x = EOFError)
  ∧ node_calls (trace r.2) = ["get_user_data"]
  ∧ llm_prompts (trace r.2) = [] ∧ renders (trace r.2) = []
  ∧ dispatches (trace r.2) = [] ∧ reports (trace r.2) = []
  ∧ fs r.2 = files.
Proof.
  intros Hl r. subst r.
  destruct lines as [|q [|e rest]]; [| |cbn in Hl; lia].
  - rewrite run_without_input. split_and!; [by eexists|reflexivity..].
  - change (run env [q] files) with
      ((emit (EvNode "get_user_data" ∅);;
        u1 ← get_user_data ∅;
        run_from (app env) 24 "analyze_intention" (u1 ∪ ∅)) (fresh [q] files)).
    py_unfold. rewrite (get_user_data_one_line _ _ q) by reflexivity.
    split_and!; [by eexists|reflexivity..].
Qed.

(** X7: [analyze_intention] builds its prompt outside the [try]: on a
    state without [question] it raises [KeyError] after its banner, and the
    model is not called. *)
Theorem analyze_intention_without_question s w :
  s !! "question" = None →
  analyze_intention env s w =
  (Raise (Exn KeyError (py "'question'")),
   log [EvPrint (py "Analizando intención de la pregunta...")] w).
Proof.
  intros Hq. unfold analyze_intention. py_unfold. rewrite Hq. reflexivity.
Qed.

(** X8: [generate_answer] reads [question] inside the [try]: on a state
    without [question] it does not raise; it returns an update whose only
    key is [error], holding the text of the [KeyError], and the model is not
    called. *)
Theorem generate_answer_without_question s w :
  s !! "question" = None →
  generate_answer env s w =
  (Return {[ "error" := py "Error generando la respuesta: 'question'" ]},
   log [EvPrint (py "Generando respuesta principal...")] w).
Proof.
  intros Hq. unfold generate_answer. py_unfold. rewrite Hq. py_unfold.
  cbn [exn_str].
  replace (py "Error generando la respuesta: " ++ py "'" ++ py "question" ++ py "'")
    with (py "Error generando la respuesta: 'question'") by (vm_compute; reflexivity).
  reflexivity.
Qed.


(** ** The terminal step on any state *)

Lemma key_error_answer : py "'" ++ py "answer" ++ py "'" = py "'answer'".
Proof. vm_compute. reflexivity. Qed.

(** The three ways through [process_outputs]: the error branch, a missing
    field, and the rendering branch (described by [deliver_spec]). *)
Lemma process_outputs_cases s w :
  (∃ err, process_outputs env s w = (Raise unhashable, log (interrupted_events err) w))
  ∨ (∃ x, process_outputs env s w
          = (Raise x, log [EvPrint (py "Procesando salidas finales...")] w)
        ∧ exn_cls x = KeyError)
  ∨ (∃ a q e, truthy (s !! "error") = false
        ∧ s !! "answer" = Some a ∧ s !! "question" = Some q ∧ s !! "email" = Some e).
Proof.
  destruct (truthy (s !! "error")) eqn:He.
  { left. destruct (s !! "error") as [err|] eqn:He'; [|done].
    exists err. by apply process_outputs_error. }
  right.
  destruct (s !! "answer") as [a|] eqn:Ha.
  2:{ left. unfold process_outputs. py_unfold. rewrite He, Ha. py_unfold. by eexists. }
  destruct (s !! "question") as [q|] eqn:Hq.
  2:{ left. unfold process_outputs. py_unfold. rewrite He, Ha, Hq. py_unfold. by eexists. }
  destruct (s !! "email") as [e|] eqn:Hm.
  2:{ left. unfold process_outputs. py_unfold. rewrite He, Ha, Hq, Hm. py_unfold.
      by eexists. }
  right. by exists a, q, e.
Qed.

(** X9: with no [error] and no [answer] in the state the terminal step
    raises [KeyError] on [state["answer"]], right after its banner: nothing
    is rendered, dispatched or deleted, and nothing is reported. *)
Theorem missing_answer_raises s w :
  truthy (s !! "error") = false → s !! "answer" = None →
  process_outputs env s w =
  (Raise (Exn KeyError (py "'answer'")),
   log [EvPrint (py "Procesando salidas finales...")] w).
Proof.
  intros He Ha. unfold process_outputs. py_unfold. rewrite He, Ha. py_unfold.
  by rewrite key_error_answer.
Qed.

(** X10: an [error] that is the empty string does not interrupt the
    terminal step: it calls [create_pdf] with the title of the question and
    the answer, as on a state without [error]. *)
Theorem empty_error_does_not_interrupt s w a q e :
  s !! "error" = Some [] →
  s !! "answer" = Some a → s !! "question" = Some q → s !! "email" = Some e →
  renders (trace (process_outputs env s w).2)
  = renders (trace w) ++ [(pdf_title_of q, a, pdf_filename)].
Proof.
  intros He Ha Hq Hm. rewrite (deliver_spec env s w a q e) by (by rewrite ?He).
  destruct (doc_build env _ _); [cbn [snd]; rewrite trace_log; by observed|].
  lazy zeta. destruct (configured_port env); cbn [snd]; rewrite trace_log; by observed.
Qed.

(** X11: the terminal step calls neither [input] nor the model, and on
    the disk it touches no file but ["respuesta_ia.pdf"], on any state. *)
Theorem terminal_step_frame s w :
  let r := process_outputs env s w in
  stdin r.2 = stdin w ∧ llm_calls r.2 = llm_calls w
  ∧ (∀ p, p ≠ pdf_filename → fs r.2 !! p = fs w !! p)
  ∧ ∃ evs, trace r.2 = trace w ++ evs ∧ llm_prompts evs = [] ∧ node_calls evs = [].
Proof.
  intros r. subst r.
  destruct (process_outputs_cases s w)
    as [[err ->]|[[x [-> _]]|(a & q & e & He & Ha & Hq & Hm)]].
  - split_and!; [reflexivity..|]. eexists. split; [reflexivity|]. split; by observed.
  - split_and!; [reflexivity..|]. eexists. split; [reflexivity|]. split; reflexivity.
  - rewrite (deliver_spec env s w a q e) by done.
    destruct (doc_build env _ _).
    { split_and!; [reflexivity..|]. eexists. split; [reflexivity|].
      change [EvPrint ?b; EvCreatePdf ?t ?c ?f; EvBuildPdf ?f' ?st (Some ?y); EvPrint ?m]
        with (render_failed_events q a y).
      split; by observed. }
    lazy zeta. destruct (configured_port env).
    + split_and!; [reflexivity..| |].
      * intros p Hp. cbn [snd]. autorewrite with world.
        by rewrite lookup_delete_ne, lookup_insert_ne.
      * eexists. split; [reflexivity|]. split; by observed.
    + split_and!; [reflexivity..| |].
      * intros p Hp. cbn [snd]. autorewrite with world. by rewrite lookup_insert_ne.
      * eexists. split; [reflexivity|]. split; by observed.
Qed.

(** X12: the terminal step reads the state at [error], [answer],
    [question] and [email] only: on two states that agree on these four
    keys it does the same, whatever else they hold ([intention] included). *)
Theorem terminal_step_reads_four_keys (s s' : AppState) w :
  (∀ k, k ∈ ["error"; "answer"; "question"; "email"] → s !! k = s' !! k) →
  process_outputs env s w = process_outputs env s' w.
Proof.
  intros Hk. unfold process_outputs, getitem.
  rewrite (Hk "error"), (Hk "answer"), (Hk "question"), (Hk "email");
    [reflexivity|set_solver..].
Qed.


(** ** What is sent *)

(** X13: the title keeps 40 characters of the question and the subject
    30, and both end in the ellipsis whether or not anything was cut: a
    question of at most 30 characters appears whole in both, and the part of
    the subject taken from the question is a prefix of the title's. *)
Theorem title_and_subject_shape (q : pystr) :
  length (pdf_title_of q) = (16 + length q `min` 40)%nat
  ∧ length (email_subject_of q) = (30 + length q `min` 30)%nat
  ∧ take 30 q `prefix_of` take 40 q
  ∧ ((length q ≤ 30)%nat →
     pdf_title_of q = py "Respuesta a: " ++ q ++ py "..."
     ∧ email_subject_of q = py "Respuesta a tu pregunta: '" ++ q ++ py "...'").
Proof.
  unfold pdf_title_of, email_subject_of. rewrite !length_app, !length_take.
  change (length (py "Respuesta a: ")) with 13%nat.
  change (length (py "...")) with 3%nat.
  change (length (py "Respuesta a tu pregunta: '")) with 26%nat.
  change (length (py "...'")) with 4%nat.
  split_and!; [lia|lia| |].
  - replace (take 30 q) with (take 30 (take 40 q)) by (by rewrite take_take).
    apply prefix_take.
  - intros Hl. by rewrite !take_ge by lia.
Qed.

Lemma dispatch_events_sessions_cases files port recipient subject body path :
  let d := dispatch_events env files port recipient subject body path in
  smtp_sessions d = []
  ∨ ∃ data r, files !! path = Some data
      ∧ credentials_missing (sender_email env) (password env) = false
      ∧ open_fault env path = None
      ∧ smtp_sessions d
        = [(smtp_server env, port, make_message env recipient subject body path data, r)].
Proof.
  unfold dispatch_events.
  destruct (credentials_missing _ _); [by left|].
  destruct (files !! path) as [data|]; [|by left].
  destruct (open_fault env path); [by left|].
  right. by eexists _, _.
Qed.




(** ** Whole runs, again *)

Lemma business_trace_analysis_state q e r1 r2 :
  states_at "analyze_intention" (business_trace q e r1 r2) = [state_at_analysis q e].
Proof. by destruct r1, r2. Qed.

(** X16: what [get_user_data] read is never overwritten: every later
    node is called once, on a state whose [question] and [email] are the two
    lines read; [analyze_intention] sees these two keys and no other. *)
Theorem question_and_email_are_kept q e rest files :
  let tr := trace (run env (q :: e :: rest) files).2 in
  ∃ s1 s2 s3,
    states_at "analyze_intention" tr = [s1]
    ∧ states_at "generate_answer" tr = [s2]
    ∧ states_at "process_outputs" tr = [s3]
    ∧ dom s1 = {[ "question"; "email" ]}
    ∧ Forall (λ s : AppState, s !! "question" = Some q ∧ s !! "email" = Some e)
        [s1; s2; s3].
Proof.
  intros tr. subst tr. rewrite run_trace.
  set (r1 := first_call env q). set (r2 := second_call env q).
  pose proof (terminal_events_quiet env files q e r1 r2) as Hq. lazy zeta in Hq.
  destruct Hq as (_ & _ & Hq).
  exists (state_at_analysis q e), (state_at_answer q e r1), (state_at_terminal q e r1 r2).
  split_and!.
  - by rewrite states_at_app, Hq, business_trace_analysis_state.
  - observed. by rewrite Hq.
  - observed. by rewrite Hq.
  - unfold state_at_analysis.
    rewrite (right_id_L ∅ (∪)), dom_insert_L, dom_singleton_L. reflexivity.
  - rewrite !Forall_cons, Forall_nil. split_and!; [| | | | | |done].
    + unfold state_at_analysis. by simplify_map_eq.
    + unfold state_at_analysis. by simplify_map_eq.
    + apply state_at_answer_question.
    + unfold state_at_answer, state_at_analysis.
      destruct r1; cbn [intention_update]; by simplify_map_eq.
    + apply state_at_terminal_question.
    + apply state_at_terminal_email.
Qed.

(** X17: when a model call failed, the run prints exactly one report,
    the terminal step's, and it carries the error of the last call that
    failed: if the answer call failed, the text of an earlier analysis
    failure is overwritten and appears nowhere in the report.  When both
    calls returned, [create_pdf] is called once, with the answer. *)
Theorem interruption_reports_last_error q e rest files :
  let tr := trace (run env (q :: e :: rest) files).2 in
  match second_call env q, first_call env q with
  | Raise x2, _ =>
      reports tr
      = [nl ++ py "[PROCESO INTERRUMPIDO] " ++ py "Error generando la respuesta: "
           ++ exn_str x2]
  | Return _, Raise x1 =>
      reports tr
      = [nl ++ py "[PROCESO INTERRUMPIDO] " ++ py "Error analizando la intención: "
           ++ exn_str x1]
  | Return a, Return _ => renders tr = [(pdf_title_of q, a, pdf_filename)]
  end.
Proof.
  intros tr. subst tr. rewrite run_trace. unfold terminal_events.
  destruct (second_call env q) as [a|x2]; [destruct (first_call env q) as [i|x1]|];
    [|by observed..].
  destruct (doc_build env _ _); [by observed|].
  destruct (configured_port env); by observed.
Qed.

Lemma length_dispatch_sessions files port recipient subject body path :
  smtp_sessions (dispatch_events env files port recipient subject body path) = []
  ∨ length (smtp_sessions (dispatch_events env files port recipient subject body path))
    = 1%nat.
Proof.
  destruct (dispatch_events_sessions_cases files port recipient subject body path)
    as [->|(data & r & _ & _ & _ & ->)]; auto.
Qed.


(** X19: when both model calls returned and the PDF builder fails, the
    run prints one report with the builder's error and stops there: no
    dispatch call, no session, no deletion, and the disk as it was. *)
Theorem render_failure_is_reported q e rest files i a x :
  first_call env q = Return i → second_call env q = Return a →
  doc_build env pdf_filename (story_of q a) = Some x →
  let r := run env (q :: e :: rest) files in
  reports (trace r.2) = [py "[ERROR] No se pudo crear el PDF: " ++ exn_str x]
  ∧ renders (trace r.2) = [(pdf_title_of q, a, pdf_filename)]
  ∧ dispatches (trace r.2) = [] ∧ smtp_sessions (trace r.2) = []
  ∧ removals (trace r.2) = [] ∧ fs r.2 = files.
Proof.
  intros H1 H2 Hb r. subst r.
  rewrite (run_answered env q e rest files i a H1 H2). lazy zeta. rewrite Hb.
  cbn [snd]. rewrite trace_log, fs_log. split_and!; by observed.
Qed.


(** X21: the program stops at module load with the [ValueError] of line
    94 exactly when [GITHUB_TOKEN] is unset or empty; in either case, and
    also with a token, the world is left untouched. *)
Theorem load_fails_on_unset_or_empty_token w :
  ((program env w).1
   = Raise (Exn ValueError (py "GITHUB_TOKEN no encontrado en el archivo .env"))
   ↔ os_getenv env "GITHUB_TOKEN" = None ∨ os_getenv env "GITHUB_TOKEN" = Some [])
  ∧ (program env w).2 = w.
Proof.
  unfold program. py_unfold. unfold module_load.
  destruct (os_getenv env "GITHUB_TOKEN") as [[|c t]|]; unfold truthy; py_unfold;
    unfold main, set_of_empty_dict; py_unfold; cbn [fst snd]; (split; [|reflexivity]).
  - split; auto.
  - unfold unhashable. split; [discriminate|]. intros [H|H]; discriminate H.
  - split; auto.
Qed.

End More.

(** ** The further properties at concrete inputs *)

Lemma pdf_body_has_no_newline_witness :
  let content := py "two" ++ nl ++ py "lines" in
  ∃ d, (fs (create_pdf env_ok (py "title") content pdf_filename (fresh [] ∅)).2)
         !! pdf_filename = Some d
    ∧ pdf_title d = py "title"
    ∧ (10 ∉ pdf_body d)
    ∧ (10 ∉ content → pdf_body d = content)
    ∧ length (pdf_body d)
      = (length content + 4 * length (filter (λ c, c = 10%N) content))%nat.
Proof.
  exact (pdf_body_has_no_newline env_ok (py "title") (py "two" ++ nl ++ py "lines")
           pdf_filename (fresh [] ∅) eq_refl).
Defined.

Lemma get_user_data_reads_two_lines_witness :
  let w := fresh [question_a; recipient_a; py "unread"] ∅ in
  ∃ u, (get_user_data (answer_update (Return (py "old"))) w).1 = Return u
    ∧ dom u = {[ "question"; "email" ]}
    ∧ u !! "question" = Some question_a ∧ u !! "email" = Some recipient_a
    ∧ stdin (get_user_data (answer_update (Return (py "old"))) w).2 = [py "unread"]
    ∧ input_prompts (trace (get_user_data (answer_update (Return (py "old"))) w).2)
      = input_prompts (trace w)
          ++ [py "Por favor, introduce tu pregunta: ";
              py "Ahora, introduce tu correo para recibir la respuesta: "].
Proof.
  exact (get_user_data_reads_two_lines (answer_update (Return (py "old")))
           (fresh [question_a; recipient_a; py "unread"] ∅)
           question_a recipient_a [py "unread"] eq_refl).
Defined.

Lemma short_input_stops_the_run_witness :
  let r := run env_ok [question_a] ∅ in
  (∃ x, r.1 = Raise x ∧ exn_cls x = EOFError)
  ∧ node_calls (trace r.2) = ["get_user_data"]
  ∧ llm_prompts (trace r.2) = [] ∧ renders (trace r.2) = []
  ∧ dispatches (trace r.2) = [] ∧ reports (trace r.2) = []
  ∧ fs r.2 = ∅.
Proof.
  apply (short_input_stops_the_run env_ok [question_a] ∅). cbn. lia.
Defined.

Lemma analyze_intention_without_question_witness :
  analyze_intention env_ok ∅ (fresh [] ∅) =
  (Raise (Exn KeyError (py "'question'")),
   log [EvPrint (py "Analizando intención de la pregunta...")] (fresh [] ∅)).
Proof.
  exact (analyze_intention_without_question env_ok ∅ (fresh [] ∅) (lookup_empty _)).
Defined.

Lemma generate_answer_without_question_witness :
  generate_answer env_ok ∅ (fresh [] ∅) =
  (Return {[ "error" := py "Error generando la respuesta: 'question'" ]},
   log [EvPrint (py "Generando respuesta principal...")] (fresh [] ∅)).
Proof.
  exact (generate_answer_without_question env_ok ∅ (fresh [] ∅) (lookup_empty _)).
Defined.

Lemma missing_answer_raises_witness :
  process_outputs env_ok (state_at_analysis question_a recipient_a) (fresh [] ∅) =
  (Raise (Exn KeyError (py "'answer'")),
   log [EvPrint (py "Procesando salidas finales...")] (fresh [] ∅)).
Proof.
  apply (missing_answer_raises env_ok); vm_compute; reflexivity.
Defined.

Lemma empty_error_does_not_interrupt_witness :
  let s : AppState :=
    {[ "error" := []; "answer" := py "4"; "question" := question_a;
       "email" := recipient_a ]} in
  renders (trace (process_outputs env_ok s (fresh [] ∅)).2)
  = renders (trace (fresh [] ∅)) ++ [(pdf_title_of question_a, py "4", pdf_filename)].
Proof.
  apply (empty_error_does_not_interrupt env_ok _ _ (py "4") question_a recipient_a);
    vm_compute; reflexivity.
Defined.

Lemma terminal_step_reads_four_keys_witness :
  let s : AppState :=
    {[ "answer" := py "4"; "question" := question_a; "email" := recipient_a ]} in
  process_outputs env_ok s (fresh [] ∅)
  = process_outputs env_ok (<[ "intention" := py "Arithmetic question" ]> s) (fresh [] ∅).
Proof.
  apply (terminal_step_reads_four_keys env_ok).
  intros k Hk. symmetry. apply lookup_insert_ne.
  intros <-. revert Hk. rewrite !elem_of_cons, elem_of_nil.
  intros [H|[H|[H|[H|[]]]]]; discriminate H.
Defined.


Lemma render_failure_is_reported_witness :
  let r := run env_render_fails [question_a; recipient_a] ∅ in
  reports (trace r.2) = [py "[ERROR] No se pudo crear el PDF: " ++ exn_str boom]
  ∧ renders (trace r.2) = [(pdf_title_of question_a, py "4", pdf_filename)]
  ∧ dispatches (trace r.2) = [] ∧ smtp_sessions (trace r.2) = []
  ∧ removals (trace r.2) = [] ∧ fs r.2 = ∅.
Proof.
  exact (render_failure_is_reported env_render_fails question_a recipient_a [] ∅
           (py "Arithmetic question") (py "4") boom eq_refl eq_refl eq_refl).
Defined.
